(** * SWIFT, Gadget-2 SPH flavour: run-time and compile-time parameters

    A shallow embedding of [src/hydro/Gadget2/hydro_parameters.h]: the
    parameter structs of the artificial viscosity, thermal diffusion and
    (under [WITH_MHD]) magnetohydrodynamics modules, with the four functions
    each of them has: [*_init] (fill the struct from the parameter file),
    [*_init_no_hydro] (fill it for mocking), [*_print] (report at start-up)
    and [*_print_snapshot] (write the values as attributes of a snapshot
    group). *)

From Stdlib Require Import ZArith QArith Qabs String List Bool Lia.
From Stdlib Require Import SpecFloat.
From stdpp Require Import base option strings gmap.

Import ListNotations.
Local Open Scope Z_scope.
Local Open Scope string_scope.

(** ** C [float]: IEEE-754 binary32

    A [float] of the source is a [spec_float] of precision 24 and maximal
    exponent 128.  Comparisons are the IEEE ones: every comparison with a NaN
    is false. *)
Module Float32.

Definition prec : Z := 24.
Definition emax : Z := 128.

Definition float : Type := spec_float.

(** The values that fit the binary32 format. *)
Definition valid (x : float) : bool := valid_binary prec emax x.

(** [x < y], [x <= y] and [x == y] of C. *)
Definition ltb (x y : float) : bool := SFltb x y.
Definition leb (x y : float) : bool := SFleb x y.
Definition eqb (x y : float) : bool := SFeqb x y.

Definition is_nan (x : float) : bool :=
  match x with S754_nan => true | _ => false end.

(** The number a finite [float] stands for, in lowest terms. *)
Definition value (x : float) : option Q :=
  match x with
  | S754_zero _ => Some (0 # 1)
  | S754_finite s m e =>
      Some (Qred (inject_Z (cond_Zopp s (Zpos m)) * Qpower (2 # 1) e))
  | _ => None
  end.

(** The conversion of an [int] to [float] (round to nearest, ties to
    even). *)
Definition of_Z (n : Z) : float := binary_normalize prec emax n 0 false.

(** A decimal constant with suffix [f], given as the fraction [n / d] it
    denotes: the correctly rounded quotient. *)
Definition literal (n : Z) (d : positive) : float :=
  SFdiv prec emax (of_Z n) (of_Z (Zpos d)).

(** The spacing of the [float]s around a finite, non-zero [x]: [2 ^ e]. *)
Definition ulp (x : float) : option Q :=
  match x with
  | S754_finite _ _ e => Some (Qred (Qpower (2 # 1) e))
  | _ => None
  end.

End Float32.

Abbreviation float := Float32.float.

(** ** Scalars

    The values the parameter file, the structs, the log and the snapshot
    attributes hold: a C [float] or a C [int]. *)
Inductive scalar : Type :=
| Float (x : float)
| Int (n : Z).

(** The value of a scalar as a [float] argument: an [int] is converted. *)
Definition to_float (v : scalar) : float :=
  match v with
  | Float x => x
  | Int n => Float32.of_Z n
  end.

(** The value of a scalar as an [int].  The source never converts a [float]
    to an [int]; the embedding leaves that conversion out. *)
Definition to_int (v : scalar) : option Z :=
  match v with
  | Int n => Some n
  | Float _ => None
  end.

(** A scalar as the condition of an [if]: it holds when the value compares
    unequal to zero. *)
Definition truthy (v : scalar) : bool :=
  match v with
  | Int n => negb (Z.eqb n 0)
  | Float x => negb (Float32.eqb x (S754_zero false))
  end.

(** [a < b] after the usual arithmetic conversions. *)
Definition scalar_ltb (a b : scalar) : bool :=
  match a, b with
  | Int m, Int n => Z.ltb m n
  | _, _ => Float32.ltb (to_float a) (to_float b)
  end.

(** ** Outcomes and the monad of the embedding

    A call either returns ([Done]), or stops the run through [error()]
    ([Fatal], with the message), or is not a program at all because it names
    something its declarations do not have ([IllFormed]).  A computation of
    type [M S A] runs on a state of type [S]: the struct a pointer argument
    designates, the log, or the attributes of a snapshot group. *)
Inductive outcome (A : Type) : Type :=
| Done (a : A)
| Fatal (msg : string)
| IllFormed (why : string).

Arguments Done {A} a.
Arguments Fatal {A} msg.
Arguments IllFormed {A} why.

Definition M (S A : Type) : Type := S -> outcome (A * S).

#[global] Instance M_ret {S : Type} : MRet (M S) :=
  fun A (a : A) (s : S) => Done (a, s).

#[global] Instance M_bind {S : Type} : MBind (M S) :=
  fun A B (k : A -> M S B) (c : M S A) (s : S) =>
    match c s with
    | Done (a, s') => k a s'
    | Fatal msg => Fatal msg
    | IllFormed why => IllFormed why
    end.

Definition ill_formed {S A : Type} (why : string) : M S A := fun _ => IllFormed why.

(** What a run leaves behind: the final state of a run that returned. *)
Definition final_state {S A : Type} (r : outcome (A * S)) : option S :=
  match r with
  | Done (_, s) => Some s
  | _ => None
  end.

(** The outcome is a stop through [error()]. *)
Definition is_fatal {A : Type} (r : outcome A) : bool :=
  match r with Fatal _ => true | _ => false end.

(** ** Structs and their members

    [p->name] is resolved against the declaration of the struct [p] points
    to: [member] reads a declared member, [assign] writes one, and both give
    [None] for a name the struct does not declare. *)
Class CStruct (T : Type) : Type := {
  member : T -> string -> option scalar;
  assign : T -> string -> scalar -> option T
}.

(** [p->name] as an rvalue, for a pointer [p] to a struct the function only
    reads. *)
Definition read_member {T S : Type} `{CStruct T} (p : T) (name : string) : M S scalar :=
  match member p name with
  | Some v => mret v
  | None => ill_formed ("no member named " ++ name)
  end.

Notation "p ~> name" := (read_member p name) (at level 10, no associativity).

(** [p->name] as an rvalue and [p->name = v], for the pointer [p] to the
    struct the function fills (the state). *)
Definition load {T : Type} `{CStruct T} (name : string) : M T scalar :=
  fun p => read_member p name p.

Definition store {T : Type} `{CStruct T} (name : string) (v : scalar) : M T unit :=
  fun p =>
    match assign p name v with
    | Some p' => Done (tt, p')
    | None => IllFormed ("cannot assign member " ++ name)
    end.

(** ** Collaborators outside this header

    The parameter-file parser ([parser.h]), the [message] and [error] macros
    ([error.h]) and the attribute writers ([common_io.h]) are included by the
    header but defined elsewhere. *)

(** The parameter file [struct swift_params]: the values it gives to its
    keys. *)
Abbreviation swift_params := (gmap string scalar).

(** A line of the start-up log: the format of a [message] call and its
    arguments. *)
Definition log : Type := list (string * list scalar).

(** The attributes of the snapshot group an open handle [hid_t] designates,
    in the order they were written. *)
Definition hid_t : Type := list (string * scalar).

(** Modelled from the spec: the macro [error] of [error.h], a failure that
    is fatal and aborts the run immediately; nothing of the state
    survives. *)
Definition error {S A : Type} (msg : string) : M S A := fun _ => Fatal msg.

(** Modelled from the spec: the macro [message] of [error.h], which emits
    one formatted line to the write-only logging sink. *)
Definition message (fmt : string) (args : list scalar) : M log unit :=
  fun l => Done (tt, (l ++ [(fmt, args)])%list).

(** The value a key has in the parameter file as a [float], and as an
    [int]: none when the key is absent or holds a value of the other type. *)
Definition float_value (params : swift_params) (name : string) : option float :=
  match params !! name with
  | Some (Float x) => Some x
  | _ => None
  end.

Definition int_value (params : swift_params) (name : string) : option Z :=
  match params !! name with
  | Some (Int n) => Some n
  | _ => None
  end.

(** Modelled from the spec: [parser_get_param_float] of [parser.h], the
    required lookup of the config source; it fails the run if the key is
    absent or of the wrong type. *)
Definition parser_get_param_float {S : Type}
    (params : swift_params) (name : string) : M S float :=
  match float_value params name with
  | Some x => mret x
  | None => error ("Cannot find a float value for " ++ name)
  end.

(** Modelled from the spec: [parser_get_opt_param_float] of [parser.h], the
    optional lookup of the config source; it returns the caller's default if
    the key is absent, and never fails (a key that holds an [int] gives no
    [float], as an absent key). *)
Definition parser_get_opt_param_float {S : Type}
    (params : swift_params) (name : string) (def : float) : M S float :=
  mret (default def (float_value params name)).

(** Modelled from the spec: [parser_get_opt_param_int] of [parser.h], the
    optional lookup of the config source for an [int]; it returns the
    caller's default if the key is absent, and never fails. *)
Definition parser_get_opt_param_int {S : Type}
    (params : swift_params) (name : string) (def : Z) : M S Z :=
  mret (default def (int_value params name)).

(** Modelled from the spec: [io_write_attribute_f] of [common_io.h], which
    writes a named [float] attribute to the metadata sink. *)
Definition io_write_attribute_f (name : string) (data : scalar) : M hid_t unit :=
  fun grp => Done (tt, (grp ++ [(name, Float (to_float data))])%list).

(** Modelled from the spec: [io_write_attribute_i] of [common_io.h], which
    writes a named [int] attribute to the metadata sink. *)
Definition io_write_attribute_i (name : string) (data : scalar) : M hid_t unit :=
  match to_int data with
  | Some n => fun grp => Done (tt, (grp ++ [(name, Int n)])%list)
  | None => ill_formed ("no int value for attribute " ++ name)
  end.

(** ** Compile-time and default parameters *)

(** [#define const_viscosity_beta 3.0f] *)
Definition const_viscosity_beta : float := Float32.literal 30 10.

(** [#define hydro_props_default_viscosity_alpha_feedback_reset 0.8f] *)
Definition hydro_props_default_viscosity_alpha_feedback_reset : float :=
  Float32.literal 8 10.

(** [#define hydro_props_default_viscosity_alpha 0.8f] *)
Definition hydro_props_default_viscosity_alpha : float := Float32.literal 8 10.

(** ** The structs *)

(** [struct mhd_global_data] (under [WITH_MHD]; the source leaves out the
    semicolon that ends the declaration).  The [int] flag is only stored,
    tested against zero and written: no arithmetic is done on it. *)
Record mhd_global_data : Type := {
  artificial_dissipation_constant : float;
  artificial_dissipation_minimum : float;
  artificial_dissipation_source : float;
  artificial_dissipation_timescale : float;
  with_div_B_cleaning : Z;
  div_B_parabolic_sigma : float;
  div_B_over_clean_factor : float
}.

(** [struct viscosity_global_data]: artificial viscosity parameters. *)
Record viscosity_global_data : Type := {
  alpha : float
}.

(** [struct diffusion_global_data {}]: thermal diffusion parameters, none. *)
Record diffusion_global_data : Type := {
}.

(** The members [struct mhd_global_data] declares. *)
Definition mhd_member (mhd : mhd_global_data) (name : string) : option scalar :=
  if String.eqb name "artificial_dissipation_constant" then
    Some (Float mhd.(artificial_dissipation_constant))
  else if String.eqb name "artificial_dissipation_minimum" then
    Some (Float mhd.(artificial_dissipation_minimum))
  else if String.eqb name "artificial_dissipation_source" then
    Some (Float mhd.(artificial_dissipation_source))
  else if String.eqb name "artificial_dissipation_timescale" then
    Some (Float mhd.(artificial_dissipation_timescale))
  else if String.eqb name "with_div_B_cleaning" then
    Some (Int mhd.(with_div_B_cleaning))
  else if String.eqb name "div_B_parabolic_sigma" then
    Some (Float mhd.(div_B_parabolic_sigma))
  else if String.eqb name "div_B_over_clean_factor" then
    Some (Float mhd.(div_B_over_clean_factor))
  else None.

Definition mhd_assign (mhd : mhd_global_data) (name : string) (v : scalar)
    : option mhd_global_data :=
  let '{| artificial_dissipation_constant := c;
          artificial_dissipation_minimum := m;
          artificial_dissipation_source := s;
          artificial_dissipation_timescale := t;
          with_div_B_cleaning := w;
          div_B_parabolic_sigma := p;
          div_B_over_clean_factor := o |} := mhd in
  let mk := Build_mhd_global_data in
  if String.eqb name "artificial_dissipation_constant" then
    Some (mk (to_float v) m s t w p o)
  else if String.eqb name "artificial_dissipation_minimum" then
    Some (mk c (to_float v) s t w p o)
  else if String.eqb name "artificial_dissipation_source" then
    Some (mk c m (to_float v) t w p o)
  else if String.eqb name "artificial_dissipation_timescale" then
    Some (mk c m s (to_float v) w p o)
  else if String.eqb name "with_div_B_cleaning" then
    n ← to_int v; Some (mk c m s t n p o)
  else if String.eqb name "div_B_parabolic_sigma" then
    Some (mk c m s t w (to_float v) o)
  else if String.eqb name "div_B_over_clean_factor" then
    Some (mk c m s t w p (to_float v))
  else None.

#[global] Instance mhd_global_data_struct : CStruct mhd_global_data :=
  {| member := mhd_member; assign := mhd_assign |}.

(** The one member [struct viscosity_global_data] declares. *)
Definition viscosity_member (viscosity : viscosity_global_data) (name : string)
    : option scalar :=
  if String.eqb name "alpha" then Some (Float viscosity.(alpha)) else None.

Definition viscosity_assign (viscosity : viscosity_global_data) (name : string)
    (v : scalar) : option viscosity_global_data :=
  if String.eqb name "alpha" then Some {| alpha := to_float v |} else None.

#[global] Instance viscosity_global_data_struct : CStruct viscosity_global_data :=
  {| member := viscosity_member; assign := viscosity_assign |}.

(** [struct diffusion_global_data] declares no member. *)
#[global] Instance diffusion_global_data_struct : CStruct diffusion_global_data :=
  {| member := fun _ _ => None; assign := fun _ _ _ => None |}.

(** ** Names used in the statements *)

(** The keys [mhd_init] reads with the required lookup, in the order of the
    calls. *)
Definition mhd_required_keys : list string :=
  ["SPH:artificial_dissipation_constant";
   "SPH:artificial_dissipation_minimum";
   "SPH:artificial_dissipation_source";
   "SPH:artificial_dissipation_timescale";
   "SPH:div_B_parabolic_sigma"].

(** The parameter file gives [key] a [float]. *)
Definition has_float (params : swift_params) (key : string) : bool :=
  match float_value params key with
  | Some _ => true
  | None => false
  end.

(** The snapshot attributes of an MHD struct: the four dissipation values,
    the cleaning flag, and the two values of the cleaning. *)
Definition mhd_dissipation_attributes (mhd : mhd_global_data)
    : list (string * scalar) :=
  [("Artificial dissipation constant", Float mhd.(artificial_dissipation_constant));
   ("Artificial dissipation minimum", Float mhd.(artificial_dissipation_minimum));
   ("Artificial dissipation source", Float mhd.(artificial_dissipation_source));
   ("Artificial dissipation timescale", Float mhd.(artificial_dissipation_timescale))].

Definition mhd_cleaning_flag_attribute (mhd : mhd_global_data)
    : string * scalar :=
  ("divB cleaning turned on", Int mhd.(with_div_B_cleaning)).

Definition mhd_cleaning_attributes (mhd : mhd_global_data)
    : list (string * scalar) :=
  [("divB parabolic sigma", Float mhd.(div_B_parabolic_sigma));
   ("divB over-cleaning factor", Float mhd.(div_B_over_clean_factor))].

(** The names of the attributes in a list of writes. *)
Definition attribute_names (written : list (string * scalar)) : list string :=
  map fst written.

(** A parameter file with the five required MHD keys and nothing else. *)
Definition mhd_params_required : gmap string scalar :=
  <["SPH:artificial_dissipation_constant" := Float (Float32.literal 1 1)]>
  (<["SPH:artificial_dissipation_minimum" := Float (Float32.literal 0 1)]>
  (<["SPH:artificial_dissipation_source" := Float (Float32.literal 1 1)]>
  (<["SPH:artificial_dissipation_timescale" := Float (Float32.literal 5 10)]>
  (<["SPH:div_B_parabolic_sigma" := Float (Float32.literal 1 1)]> ∅)))).

(** The same with the cleaning on and an over-cleaning factor of [0.5f]. *)
Definition mhd_params_factor_half : gmap string scalar :=
  <["SPH:with_div_B_cleaning" := Int 1]>
  (<["SPH:div_B_over_clean_factor" := Float (Float32.literal 5 10)]>
   mhd_params_required).

(** The required keys without ["SPH:div_B_parabolic_sigma"]. *)
Definition mhd_params_no_sigma : gmap string scalar :=
  delete "SPH:div_B_parabolic_sigma" mhd_params_required.

(** The required keys with a NaN as over-cleaning factor. *)
Definition mhd_params_factor_nan : gmap string scalar :=
  <["SPH:div_B_over_clean_factor" := Float S754_nan]> mhd_params_required.

(** The required keys with the cleaning on and no over-cleaning factor. *)
Definition mhd_params_cleaning_on : gmap string scalar :=
  <["SPH:with_div_B_cleaning" := Int 1]> mhd_params_required.

(** A parameter file that sets the viscosity alpha to [0.5f]. *)
Definition viscosity_params_half : gmap string scalar :=
  {["SPH:viscosity_alpha" := Float (Float32.literal 5 10)]}.

(** An MHD struct with the cleaning on. *)
Definition mhd_cleaning_on : mhd_global_data :=
  {| artificial_dissipation_constant := Float32.literal 1 1;
     artificial_dissipation_minimum := Float32.literal 0 1;
     artificial_dissipation_source := Float32.literal 1 1;
     artificial_dissipation_timescale := Float32.literal 5 10;
     with_div_B_cleaning := 1;
     div_B_parabolic_sigma := Float32.literal 1 1;
     div_B_over_clean_factor := Float32.literal 1 1 |}.

(** An MHD struct before it is filled. *)
Definition mhd_unfilled : mhd_global_data :=
  {| artificial_dissipation_constant := S754_nan;
     artificial_dissipation_minimum := S754_nan;
     artificial_dissipation_source := S754_nan;
     artificial_dissipation_timescale := S754_nan;
     with_div_B_cleaning := 7;
     div_B_parabolic_sigma := S754_nan;
     div_B_over_clean_factor := S754_nan |}.

(** ** The functions of the header *)

Section Gadget2.

(** [struct unit_system] and [struct phys_const] are only declared here. *)
Context {struct_unit_system struct_phys_const : Type}.

(** The source calls [parser_get_opt_param_int] for
    ["SPH:with_div_B_cleaning"] with the parameter file and the key only: what
    the flag is when the key is absent is not fixed by this header, and is a
    parameter of the development. *)
Variable with_div_B_cleaning_unset : Z.

(** *** MHD (under [WITH_MHD]) *)

(** Initialises the MHD parameters in the struct from the parameter file,
    or sets them to defaults. *)
Definition mhd_init (params : swift_params) (us : struct_unit_system)
    (phys_const : struct_phys_const) : M mhd_global_data unit :=
  x ← parser_get_param_float params "SPH:artificial_dissipation_constant";
  store "artificial_dissipation_constant" (Float x);;
  x ← parser_get_param_float params "SPH:artificial_dissipation_minimum";
  store "artificial_dissipation_minimum" (Float x);;
  x ← parser_get_param_float params "SPH:artificial_dissipation_source";
  store "artificial_dissipation_source" (Float x);;
  x ← parser_get_param_float params "SPH:artificial_dissipation_timescale";
  store "artificial_dissipation_timescale" (Float x);;
  n ← parser_get_opt_param_int params "SPH:with_div_B_cleaning"
        with_div_B_cleaning_unset;
  store "with_div_B_cleaning" (Int n);;
  x ← parser_get_param_float params "SPH:div_B_parabolic_sigma";
  store "div_B_parabolic_sigma" (Float x);;
  x ← parser_get_opt_param_float params "SPH:div_B_over_clean_factor"
        (Float32.literal 1 1);
  store "div_B_over_clean_factor" (Float x);;
  f ← load "div_B_over_clean_factor";
  if scalar_ltb f (Float (Float32.literal 1 1)) then
    error "Cannot have div_B_over_clean_factor < 1."
  else mret tt.

(** Initialises an MHD struct to sensible numbers for mocking purposes. *)
Definition mhd_init_no_hydro : M mhd_global_data unit :=
  store "artificial_dissipation_constant" (Float (Float32.literal 0 1));;
  store "artificial_dissipation_minimum" (Float (Float32.literal 0 1));;
  store "artificial_dissipation_source" (Float (Float32.literal 0 1));;
  store "artificial_dissipation_timescale" (Float (Float32.literal 0 1));;
  store "with_div_B_cleaning" (Int 0);;
  store "div_B_parabolic_sigma" (Float (Float32.literal 0 1));;
  store "div_B_over_clean_factor" (Float (Float32.literal 0 1)).

(** Prints out the MHD parameters at the start of a run. *)
Definition mhd_print (mhd : mhd_global_data) : M log unit :=
  v ← mhd ~> "artificial_dissipation_constant";
  message "MHD artificial_dissipation_constant = %g" [v];;
  v ← mhd ~> "artificial_dissipation_minimum";
  message "MHD artificial_dissipation_minimum = %g" [v];;
  v ← mhd ~> "artificial_dissipation_source";
  message "MHD artificial_dissipation_source = %g" [v];;
  v ← mhd ~> "artificial_dissipation_timescale";
  message "MHD artificial_dissipation_timescale = %g" [v];;
  c ← mhd ~> "div_B_cleaning";
  if truthy c then
    message "MHD is running with divB cleaning ON." [];;
    v ← mhd ~> "div_B_parabolic_sigma";
    message "MHD div_B_parabolic_sigma = %g" [v];;
    v ← mhd ~> "div_B_over_clean_factor";
    message "MHD div_B_over_clean_factor = %g" [v]
  else
    message "MHD is running with divB cleaning OFF." [].

(** Prints the MHD information to the snapshot when writing (under
    [HAVE_HDF5]). *)
Definition mhd_print_snapshot (h_grpsph : hid_t) (mhd : mhd_global_data)
    : outcome (unit * hid_t) :=
  (v ← mhd ~> "artificial_dissipation_constant";
   io_write_attribute_f "Artificial dissipation constant" v;;
   v ← mhd ~> "artificial_dissipation_minimum";
   io_write_attribute_f "Artificial dissipation minimum" v;;
   v ← mhd ~> "artificial_dissipation_source";
   io_write_attribute_f "Artificial dissipation source" v;;
   v ← mhd ~> "artificial_dissipation_timescale";
   io_write_attribute_f "Artificial dissipation timescale" v;;
   v ← mhd ~> "with_div_B_cleaning";
   io_write_attribute_i "divB cleaning turned on" v;;
   c ← mhd ~> "with_div_B_cleaning";
   if truthy c then
     v ← mhd ~> "div_B_parabolic_sigma";
     io_write_attribute_f "divB parabolic sigma" v;;
     v ← mhd ~> "div_B_over_clean_factor";
     io_write_attribute_f "divB over-cleaning factor" v
   else mret tt) h_grpsph.

(** *** Viscosity *)

(** Initialises the viscosity parameters in the struct from the parameter
    file, or sets them to defaults. *)
Definition viscosity_init (params : swift_params) (us : struct_unit_system)
    (phys_const : struct_phys_const) : M viscosity_global_data unit :=
  x ← parser_get_opt_param_float params "SPH:viscosity_alpha"
        hydro_props_default_viscosity_alpha;
  store "alpha" (Float x).

(** Initialises a viscosity struct to sensible numbers for mocking
    purposes. *)
Definition viscosity_init_no_hydro : M viscosity_global_data unit :=
  store "alpha" (Float hydro_props_default_viscosity_alpha).

(** Prints out the viscosity parameters at the start of a run. *)
Definition viscosity_print (viscosity : viscosity_global_data) : M log unit :=
  v ← viscosity ~> "alpha";
  message "Artificial viscosity parameters set to alpha: %.3f" [v].

(** Prints the viscosity information to the snapshot when writing (under
    [HAVE_HDF5]). *)
Definition viscosity_print_snapshot (h_grpsph : hid_t)
    (viscosity : viscosity_global_data) : outcome (unit * hid_t) :=
  (v ← viscosity ~> "alpha";
   io_write_attribute_f "Alpha viscosity" v;;
   io_write_attribute_f "Beta viscosity" (Float const_viscosity_beta)) h_grpsph.

(** *** Diffusion: four empty bodies *)

Definition diffusion_init (params : swift_params) (us : struct_unit_system)
    (phys_const : struct_phys_const) : M diffusion_global_data unit :=
  mret tt.

Definition diffusion_init_no_hydro : M diffusion_global_data unit :=
  mret tt.

Definition diffusion_print (diffusion : diffusion_global_data) : M log unit :=
  mret tt.

Definition diffusion_print_snapshot (h_grpsph : hid_t)
    (diffusion : diffusion_global_data) : outcome (unit * hid_t) :=
  (mret tt : M hid_t unit) h_grpsph.

End Gadget2.

(** * Properties *)

(** ** The constants *)

Lemma literal_zero : Float32.literal 0 1 = S754_zero false.
Proof. reflexivity. Qed.

Lemma literal_one : Float32.literal 1 1 = S754_finite false 8388608 (-23).
Proof. reflexivity. Qed.

Lemma literal_half : Float32.literal 5 10 = S754_finite false 8388608 (-24).
Proof. reflexivity. Qed.

Lemma literal_one_value : Float32.value (Float32.literal 1 1) = Some (1 # 1).
Proof. reflexivity. Qed.

Lemma literal_half_value : Float32.value (Float32.literal 5 10) = Some (1 # 2).
Proof. reflexivity. Qed.

(** [3.0f] is the number three. *)
Lemma const_viscosity_beta_value :
  const_viscosity_beta = S754_finite false 12582912 (-22) /\
  const_viscosity_beta = Float32.of_Z 3 /\
  Float32.value const_viscosity_beta = Some (3 # 1).
Proof. repeat split. Qed.

(** [0.8f] is a binary32 number, [13421773 / 2^24], and no binary32 number
    is nearer to eight tenths: it is within half a unit in the last place. *)
Lemma hydro_props_default_viscosity_alpha_value :
  hydro_props_default_viscosity_alpha = S754_finite false 13421773 (-24) /\
  Float32.valid hydro_props_default_viscosity_alpha = true /\
  exists q u,
    Float32.value hydro_props_default_viscosity_alpha = Some q /\
    Float32.ulp hydro_props_default_viscosity_alpha = Some u /\
    (Qabs (q - (8 # 10)) <= u / (2 # 1))%Q.
Proof.
  split; [reflexivity | split; [reflexivity |]].
  exists (13421773 # 16777216)%Q, (1 # 16777216)%Q.
  split; [reflexivity | split; [reflexivity |]].
  vm_compute. intros H. discriminate H.
Qed.

(** ** Comparisons of [float]s *)

Lemma SFcompare_antisym (x y : spec_float) (c : comparison) :
  SFcompare x y = Some c -> SFcompare y x = Some (CompOpp c).
Proof.
  destruct x as [sx | sx | | sx mx ex], y as [sy | sy | | sy my ey];
    simpl; try discriminate;
    try (intros [= <-]; repeat match goal with b : bool |- _ => destruct b end;
         reflexivity).
  intros [= <-].
  assert (Hm : Pos.compare_cont Eq my mx = CompOpp (Pos.compare_cont Eq mx my))
    by (symmetry; apply (Pos.compare_cont_antisym mx my Eq)).
  rewrite (Z.compare_antisym ex ey), Hm.
  destruct sx, sy; simpl; try reflexivity;
    destruct (ex ?= ey)%Z; simpl; try reflexivity;
    destruct (Pos.compare_cont Eq mx my); reflexivity.
Qed.

(** For numbers, [not (x < y)] is [y <= x]; for a NaN both are false. *)
Lemma ltb_false_leb (x y : float) :
  Float32.is_nan x = false -> Float32.is_nan y = false ->
  Float32.ltb x y = false -> Float32.leb y x = true.
Proof.
  unfold Float32.ltb, Float32.leb, SFltb, SFleb. intros Hx Hy.
  destruct (SFcompare x y) as [c |] eqn:E.
  - rewrite (SFcompare_antisym _ _ _ E).
    destruct c; simpl; congruence.
  - destruct x, y; simpl in *; discriminate.
Qed.

Lemma leb_nan_r (x : float) : Float32.leb x S754_nan = false.
Proof. destruct x; reflexivity. Qed.

(** ** The parameter file *)

Arguments Float32.literal : simpl never.
Arguments Float32.ltb : simpl never.
Arguments Float32.leb : simpl never.

Lemma float_value_supplied (params : swift_params) (key : string) (v : float) :
  params !! key = Some (Float v) -> float_value params key = Some v.
Proof. intros H. unfold float_value. rewrite H. reflexivity. Qed.

Lemma float_value_absent (params : swift_params) (key : string) :
  params !! key = None -> float_value params key = None.
Proof. intros H. unfold float_value. rewrite H. reflexivity. Qed.

Lemma has_float_value (params : swift_params) (key : string) :
  has_float params key = true -> exists x, float_value params key = Some x.
Proof.
  unfold has_float. destruct (float_value params key) as [x |];
    [eauto | discriminate].
Qed.

Lemma forallb_false_find {A : Type} (f : A -> bool) (l : list A) :
  forallb f l = false ->
  exists x, find (fun a => negb (f a)) l = Some x /\ In x l.
Proof.
  induction l as [| a l IH]; simpl; [discriminate |].
  destruct (f a); simpl.
  - intros H. destruct (IH H) as (x & Hx & Hin). eauto.
  - eauto.
Qed.

(** ** [mhd_init], call by call *)

Section MhdInit.

Context {U P : Type}.
Variables (unset : Z) (params : swift_params) (us : U) (pc : P).

(** With the five required keys in the file, every lookup returns and the
    run reaches the check of the over-cleaning factor. *)
Lemma mhd_init_present (mhd : mhd_global_data) (c m s t p : float) :
  float_value params "SPH:artificial_dissipation_constant" = Some c ->
  float_value params "SPH:artificial_dissipation_minimum" = Some m ->
  float_value params "SPH:artificial_dissipation_source" = Some s ->
  float_value params "SPH:artificial_dissipation_timescale" = Some t ->
  float_value params "SPH:div_B_parabolic_sigma" = Some p ->
  mhd_init unset params us pc mhd =
    let n := default unset (int_value params "SPH:with_div_B_cleaning") in
    let o := default (Float32.literal 1 1)
               (float_value params "SPH:div_B_over_clean_factor") in
    if Float32.ltb o (Float32.literal 1 1)
    then Fatal "Cannot have div_B_over_clean_factor < 1."
    else Done (tt, Build_mhd_global_data c m s t n p o).
Proof.
  intros Hc Hm Hs Ht Hp. destruct mhd.
  unfold mhd_init, parser_get_param_float.
  rewrite Hc, Hm, Hs, Ht, Hp.
  unfold mbind, M_bind, mret, M_ret, store, load, read_member, error,
    parser_get_opt_param_int, parser_get_opt_param_float, scalar_ltb.
  simpl.
  destruct (Float32.ltb _ _); reflexivity.
Qed.

Lemma mhd_init_all_present (mhd : mhd_global_data) :
  forallb (has_float params) mhd_required_keys = true ->
  exists c m s t p,
    mhd_init unset params us pc mhd =
      let n := default unset (int_value params "SPH:with_div_B_cleaning") in
      let o := default (Float32.literal 1 1)
                 (float_value params "SPH:div_B_over_clean_factor") in
      if Float32.ltb o (Float32.literal 1 1)
      then Fatal "Cannot have div_B_over_clean_factor < 1."
      else Done (tt, Build_mhd_global_data c m s t n p o).
Proof.
  intros H. simpl in H.
  repeat (apply andb_prop in H; destruct H as [?%has_float_value H]).
  repeat match goal with E : exists _, _ |- _ => destruct E end.
  do 5 eexists. apply mhd_init_present; eassumption.
Qed.

(** The first required key the file has no [float] for stops the run, at
    its lookup. *)
Lemma mhd_init_first_missing (mhd : mhd_global_data) (key : string) :
  find (fun k => negb (has_float params k)) mhd_required_keys = Some key ->
  mhd_init unset params us pc mhd =
    Fatal ("Cannot find a float value for " ++ key).
Proof.
  intros H. destruct mhd.
  unfold mhd_init, parser_get_param_float.
  simpl in H. unfold has_float in H.
  destruct (float_value params "SPH:artificial_dissipation_constant");
    simpl in H; [| injection H as <-; reflexivity].
  destruct (float_value params "SPH:artificial_dissipation_minimum");
    simpl in H; [| injection H as <-; reflexivity].
  destruct (float_value params "SPH:artificial_dissipation_source");
    simpl in H; [| injection H as <-; reflexivity].
  destruct (float_value params "SPH:artificial_dissipation_timescale");
    simpl in H; [| injection H as <-; reflexivity].
  destruct (float_value params "SPH:div_B_parabolic_sigma");
    simpl in H; [| injection H as <-; reflexivity].
  discriminate H.
Qed.

(** A NaN is not below one: the check lets it through, although one is not
    at most it. *)
Lemma mhd_init_accepts_nan (mhd : mhd_global_data) :
  forallb (has_float params) mhd_required_keys = true ->
  float_value params "SPH:div_B_over_clean_factor" = Some S754_nan ->
  exists mhd',
    mhd_init unset params us pc mhd = Done (tt, mhd') /\
    div_B_over_clean_factor mhd' = S754_nan /\
    Float32.leb (Float32.literal 1 1) (div_B_over_clean_factor mhd') = false.
Proof.
  intros Hreq Hnan.
  destruct (mhd_init_all_present mhd Hreq) as (c & m & s & t & p & E).
  rewrite Hnan in E. simpl in E.
  eexists. split; [exact E |]. split; [reflexivity | apply leb_nan_r].
Qed.

(** A run of [mhd_init] that returns has passed the check. *)
Lemma mhd_init_done (mhd mhd' : mhd_global_data) :
  mhd_init unset params us pc mhd = Done (tt, mhd') ->
  forallb (has_float params) mhd_required_keys = true /\
  div_B_over_clean_factor mhd' =
    default (Float32.literal 1 1)
      (float_value params "SPH:div_B_over_clean_factor") /\
  Float32.ltb (div_B_over_clean_factor mhd') (Float32.literal 1 1) = false.
Proof.
  intros Hrun.
  destruct (forallb (has_float params) mhd_required_keys) eqn:Hall.
  - destruct (mhd_init_all_present mhd Hall) as (c & m & s & t & p & E).
    rewrite E in Hrun. simpl in Hrun.
    destruct (Float32.ltb _ _) eqn:Hlt; [discriminate |].
    injection Hrun as <-. simpl. auto.
  - destruct (forallb_false_find _ _ Hall) as (k & Hk & _).
    rewrite (mhd_init_first_missing mhd k Hk) in Hrun. discriminate.
Qed.

End MhdInit.

(** ** MHD: resolving the parameters *)

(** C1. A parameter file that gives ["SPH:div_B_over_clean_factor"] a value
    [v < 1.0] makes [mhd_init] stop through [error()]: the outcome is
    [Fatal] with a message and holds no struct.  When the five required keys
    are there, the message is the one of the check, and the check stops the
    run exactly when [v < 1.0]: a [v] that is not below one is accepted and
    stored. *)
Theorem mhd_init_over_clean_factor_below_one
    {U P : Type} (unset : Z) (params : swift_params) (us : U) (pc : P)
    (mhd : mhd_global_data) (v : float) :
  params !! "SPH:div_B_over_clean_factor" = Some (Float v) ->
  (Float32.ltb v (Float32.literal 1 1) = true ->
   exists msg,
     mhd_init unset params us pc mhd = Fatal msg /\
     final_state (mhd_init unset params us pc mhd) = None) /\
  (forallb (has_float params) mhd_required_keys = true ->
   (mhd_init unset params us pc mhd =
      Fatal "Cannot have div_B_over_clean_factor < 1."
    <-> Float32.ltb v (Float32.literal 1 1) = true) /\
   (Float32.ltb v (Float32.literal 1 1) = false ->
    exists mhd',
      mhd_init unset params us pc mhd = Done (tt, mhd') /\
      div_B_over_clean_factor mhd' = v)).
Proof.
  intros Hv%float_value_supplied.
  assert (Hall : forallb (has_float params) mhd_required_keys = true ->
                 mhd_init unset params us pc mhd =
                   if Float32.ltb v (Float32.literal 1 1)
                   then Fatal "Cannot have div_B_over_clean_factor < 1."
                   else Done (tt, {| artificial_dissipation_constant :=
                                       default v (float_value params "SPH:artificial_dissipation_constant");
                                     artificial_dissipation_minimum :=
                                       default v (float_value params "SPH:artificial_dissipation_minimum");
                                     artificial_dissipation_source :=
                                       default v (float_value params "SPH:artificial_dissipation_source");
                                     artificial_dissipation_timescale :=
                                       default v (float_value params "SPH:artificial_dissipation_timescale");
                                     with_div_B_cleaning :=
                                       default unset (int_value params "SPH:with_div_B_cleaning");
                                     div_B_parabolic_sigma :=
                                       default v (float_value params "SPH:div_B_parabolic_sigma");
                                     div_B_over_clean_factor := v |})).
  { intros H. simpl in H.
    repeat (apply andb_prop in H; destruct H as [?%has_float_value H]).
    repeat match goal with E : exists _, _ |- _ => destruct E as [? E] end.
    erewrite mhd_init_present by eassumption.
    repeat match goal with E : float_value _ _ = Some _ |- _ =>
      rewrite E; clear E end.
    reflexivity. }
  split.
  - intros Hlt.
    destruct (forallb (has_float params) mhd_required_keys) eqn:Hreq.
    + rewrite (Hall eq_refl), Hlt. eexists. split; reflexivity.
    + destruct (forallb_false_find _ _ Hreq) as (k & Hk & _).
      rewrite (mhd_init_first_missing unset params us pc mhd k Hk).
      eexists. split; reflexivity.
  - intros Hreq. rewrite (Hall Hreq). split.
    + destruct (Float32.ltb v (Float32.literal 1 1)); split;
        intros H; try reflexivity; discriminate H.
    + intros ->. eexists. split; reflexivity.
Qed.

Lemma mhd_init_over_clean_factor_below_one_witness :
  mhd_params_factor_half !! "SPH:div_B_over_clean_factor"
    = Some (Float (Float32.literal 5 10)) /\
  Float32.ltb (Float32.literal 5 10) (Float32.literal 1 1) = true /\
  forallb (has_float mhd_params_factor_half) mhd_required_keys = true /\
  mhd_init 0 mhd_params_factor_half tt tt mhd_unfilled =
    Fatal "Cannot have div_B_over_clean_factor < 1.".
Proof.
  assert (Hv : mhd_params_factor_half !! "SPH:div_B_over_clean_factor"
               = Some (Float (Float32.literal 5 10)))
    by (vm_compute; reflexivity).
  assert (Hlt : Float32.ltb (Float32.literal 5 10) (Float32.literal 1 1) = true)
    by (vm_compute; reflexivity).
  assert (Hreq : forallb (has_float mhd_params_factor_half) mhd_required_keys
                 = true)
    by (vm_compute; reflexivity).
  split; [exact Hv | split; [exact Hlt | split; [exact Hreq |]]].
  destruct (mhd_init_over_clean_factor_below_one
              0 mhd_params_factor_half tt tt mhd_unfilled _ Hv) as [_ Hcheck].
  destruct (Hcheck Hreq) as [Hiff _].
  apply Hiff. exact Hlt.
Defined.

(** C5. A parameter file without ["SPH:div_B_over_clean_factor"] and with the
    five required keys: [mhd_init] returns, the over-cleaning factor of the
    struct is [1.f], the number one, and the check lets it through: one is
    not below one, and one is at most one. *)
Theorem mhd_init_over_clean_factor_default
    {U P : Type} (unset : Z) (params : swift_params) (us : U) (pc : P)
    (mhd : mhd_global_data) :
  params !! "SPH:div_B_over_clean_factor" = None ->
  forallb (has_float params) mhd_required_keys = true ->
  exists mhd',
    mhd_init unset params us pc mhd = Done (tt, mhd') /\
    div_B_over_clean_factor mhd' = Float32.literal 1 1 /\
    Float32.value (div_B_over_clean_factor mhd') = Some (1 # 1) /\
    Float32.ltb (div_B_over_clean_factor mhd') (Float32.literal 1 1) = false /\
    Float32.leb (Float32.literal 1 1) (div_B_over_clean_factor mhd') = true.
Proof.
  intros Habs%float_value_absent Hreq.
  destruct (mhd_init_all_present unset params us pc mhd Hreq)
    as (c & m & s & t & p & E).
  rewrite Habs in E. simpl in E.
  change (Float32.ltb (Float32.literal 1 1) (Float32.literal 1 1))
    with false in E.
  eexists. split; [exact E |]. repeat split.
Qed.

Lemma mhd_init_over_clean_factor_default_witness :
  mhd_params_required !! "SPH:div_B_over_clean_factor" = None /\
  forallb (has_float mhd_params_required) mhd_required_keys = true /\
  exists mhd',
    mhd_init 0 mhd_params_required tt tt mhd_unfilled = Done (tt, mhd') /\
    div_B_over_clean_factor mhd' = Float32.literal 1 1.
Proof.
  assert (Habs : mhd_params_required !! "SPH:div_B_over_clean_factor" = None)
    by (vm_compute; reflexivity).
  assert (Hreq : forallb (has_float mhd_params_required) mhd_required_keys
                 = true)
    by (vm_compute; reflexivity).
  split; [exact Habs | split; [exact Hreq |]].
  destruct (mhd_init_over_clean_factor_default
              0 mhd_params_required tt tt mhd_unfilled Habs Hreq)
    as (mhd' & Hrun & Hone & _).
  exists mhd'. split; assumption.
Defined.

(** C7. The four artificial-dissipation keys and
    ["SPH:div_B_parabolic_sigma"] are required: when the parameter file lacks
    one of them, [mhd_init] stops through [error()] at the lookup of the
    first required key it has no value for; the outcome names that key and
    holds no struct, filled or partly filled. *)
Theorem mhd_init_missing_required_key
    {U P : Type} (unset : Z) (params : swift_params) (us : U) (pc : P)
    (mhd : mhd_global_data) (key : string) :
  In key mhd_required_keys ->
  params !! key = None ->
  exists first,
    find (fun k => negb (has_float params k)) mhd_required_keys = Some first /\
    mhd_init unset params us pc mhd =
      Fatal ("Cannot find a float value for " ++ first) /\
    final_state (mhd_init unset params us pc mhd) = None.
Proof.
  intros Hin Habs%float_value_absent.
  assert (Hreq : forallb (has_float params) mhd_required_keys = false).
  { destruct (forallb _ _) eqn:E; [| reflexivity].
    rewrite forallb_forall in E. specialize (E key Hin).
    unfold has_float in E. rewrite Habs in E. discriminate E. }
  destruct (forallb_false_find _ _ Hreq) as (k & Hk & _).
  exists k. rewrite (mhd_init_first_missing unset params us pc mhd k Hk).
  repeat split. exact Hk.
Qed.

Lemma mhd_init_missing_required_key_witness :
  In "SPH:div_B_parabolic_sigma" mhd_required_keys /\
  mhd_params_no_sigma !! "SPH:div_B_parabolic_sigma" = None /\
  is_fatal (mhd_init 0 mhd_params_no_sigma tt tt mhd_unfilled) = true.
Proof.
  assert (Hin : In "SPH:div_B_parabolic_sigma" mhd_required_keys)
    by (simpl; tauto).
  assert (Habs : mhd_params_no_sigma !! "SPH:div_B_parabolic_sigma" = None)
    by (vm_compute; reflexivity).
  split; [exact Hin | split; [exact Habs |]].
  destruct (mhd_init_missing_required_key
              0 mhd_params_no_sigma tt tt mhd_unfilled _ Hin Habs)
    as (first & _ & Hrun & _).
  rewrite Hrun. reflexivity.
Defined.

(** ** MHD: the snapshot attributes *)

(** C2. For every MHD struct, [mhd_print_snapshot] appends to the group the
    four dissipation attributes and ["divB cleaning turned on"], whatever the
    struct holds, and then ["divB parabolic sigma"] and
    ["divB over-cleaning factor"] if and only if [with_div_B_cleaning] is not
    zero; the names are these strings. *)
Theorem mhd_print_snapshot_attributes
    (h_grpsph : hid_t) (mhd : mhd_global_data) :
  exists written,
    mhd_print_snapshot h_grpsph mhd = Done (tt, (h_grpsph ++ written)%list) /\
    written =
      (mhd_dissipation_attributes mhd ++
       mhd_cleaning_flag_attribute mhd ::
       (if Z.eqb (with_div_B_cleaning mhd) 0 then []
        else mhd_cleaning_attributes mhd))%list /\
    attribute_names (firstn 5 written) =
      ["Artificial dissipation constant"; "Artificial dissipation minimum";
       "Artificial dissipation source"; "Artificial dissipation timescale";
       "divB cleaning turned on"] /\
    (In "divB parabolic sigma" (attribute_names written)
     <-> with_div_B_cleaning mhd <> 0) /\
    (In "divB over-cleaning factor" (attribute_names written)
     <-> with_div_B_cleaning mhd <> 0) /\
    (with_div_B_cleaning mhd <> 0 ->
     attribute_names (skipn 5 written) =
       ["divB parabolic sigma"; "divB over-cleaning factor"]) /\
    (with_div_B_cleaning mhd = 0 -> skipn 5 written = []).
Proof.
  destruct mhd as [c m s t w p o].
  exists (mhd_dissipation_attributes (Build_mhd_global_data c m s t w p o) ++
          mhd_cleaning_flag_attribute (Build_mhd_global_data c m s t w p o) ::
          (if Z.eqb w 0 then []
           else mhd_cleaning_attributes (Build_mhd_global_data c m s t w p o)))%list.
  split.
  - unfold mhd_print_snapshot, mbind, M_bind, mret, M_ret, read_member,
      io_write_attribute_f, io_write_attribute_i.
    simpl. destruct (Z.eqb w 0); simpl;
      repeat rewrite <- app_assoc; simpl; reflexivity.
  - split; [reflexivity |].
    unfold mhd_dissipation_attributes, mhd_cleaning_flag_attribute,
      mhd_cleaning_attributes, attribute_names. simpl.
    destruct (Z.eqb_spec w 0) as [-> | Hne]; simpl.
    + repeat split; try reflexivity; try tauto;
        intros H; try (exfalso; apply H; reflexivity);
        repeat (destruct H as [H | H]; try discriminate H); contradiction.
    + repeat split; try reflexivity; try tauto; try (intros; assumption);
        intros H; exfalso; apply Hne; exact H.
Qed.

Lemma mhd_print_snapshot_attributes_witness :
  with_div_B_cleaning mhd_cleaning_on <> 0 /\
  exists written,
    mhd_print_snapshot [] mhd_cleaning_on = Done (tt, written) /\
    attribute_names (skipn 5 written) =
      ["divB parabolic sigma"; "divB over-cleaning factor"].
Proof.
  assert (Hon : with_div_B_cleaning mhd_cleaning_on <> 0)
    by (simpl; lia).
  split; [exact Hon |].
  destruct (mhd_print_snapshot_attributes [] mhd_cleaning_on)
    as (written & Hrun & _ & _ & _ & _ & Hnames & _).
  exists written. split; [exact Hrun | exact (Hnames Hon)].
Defined.

(** ** MHD: the report *)

(** Whatever the struct holds, [mhd_print] is stopped by the member it
    names in its condition. *)
Lemma mhd_print_ill_formed (mhd : mhd_global_data) (l : log) :
  mhd_print mhd l = IllFormed "no member named div_B_cleaning".
Proof. reflexivity. Qed.

(** C6, as the source has it.  The condition of [mhd_print] reads
    [mhd->div_B_cleaning], and [struct mhd_global_data] declares
    [with_div_B_cleaning] and no [div_B_cleaning]: for the struct with the
    cleaning on and an empty log, and for every other struct, the function is
    not well formed and no line is reported, where the claim has it branch on
    [with_div_B_cleaning] as [mhd_print_snapshot] does. *)
Theorem mhd_print_reads_undeclared_member :
  member mhd_cleaning_on "with_div_B_cleaning" = Some (Int 1) /\
  member mhd_cleaning_on "div_B_cleaning" = None /\
  mhd_print mhd_cleaning_on [] = IllFormed "no member named div_B_cleaning" /\
  final_state (mhd_print mhd_cleaning_on []) = None /\
  (forall (mhd : mhd_global_data) (l : log),
     member mhd "div_B_cleaning" = None /\
     final_state (mhd_print mhd l) = None).
Proof.
  split; [reflexivity | split; [reflexivity |]].
  split; [apply mhd_print_ill_formed | split].
  - rewrite mhd_print_ill_formed. reflexivity.
  - intros mhd l. split; [reflexivity |].
    rewrite mhd_print_ill_formed. reflexivity.
Qed.

(** ** Viscosity *)

(** C4. [viscosity_init] returns for every parameter file and fills the
    struct: with the default [0.8f] when ["SPH:viscosity_alpha"] is absent,
    and with the value [v] of the file when it is there, whatever [v] is (no
    range is checked). *)
Theorem viscosity_init_never_fails
    {U P : Type} (params : swift_params) (us : U) (pc : P)
    (viscosity : viscosity_global_data) :
  exists a,
    viscosity_init params us pc viscosity = Done (tt, {| alpha := a |}) /\
    (params !! "SPH:viscosity_alpha" = None ->
     a = hydro_props_default_viscosity_alpha /\
     a = S754_finite false 13421773 (-24)) /\
    (forall v, params !! "SPH:viscosity_alpha" = Some (Float v) -> a = v).
Proof.
  exists (default hydro_props_default_viscosity_alpha
            (float_value params "SPH:viscosity_alpha")).
  split; [reflexivity | split].
  - intros ->%float_value_absent. split; reflexivity.
  - intros v ->%float_value_supplied. reflexivity.
Qed.

Lemma viscosity_init_never_fails_witness :
  (∅ : gmap string scalar) !! "SPH:viscosity_alpha" = None /\
  viscosity_params_half !! "SPH:viscosity_alpha"
    = Some (Float (Float32.literal 5 10)) /\
  viscosity_init ∅ tt tt {| alpha := S754_nan |}
    = Done (tt, {| alpha := hydro_props_default_viscosity_alpha |}) /\
  viscosity_init viscosity_params_half tt tt {| alpha := S754_nan |}
    = Done (tt, {| alpha := Float32.literal 5 10 |}).
Proof.
  assert (Habs : (∅ : gmap string scalar) !! "SPH:viscosity_alpha" = None)
    by (vm_compute; reflexivity).
  assert (Hhalf : viscosity_params_half !! "SPH:viscosity_alpha"
                  = Some (Float (Float32.literal 5 10)))
    by (vm_compute; reflexivity).
  split; [exact Habs | split; [exact Hhalf | split]].
  - destruct (viscosity_init_never_fails ∅ tt tt {| alpha := S754_nan |})
      as (a & Hrun & Hdef & _).
    rewrite Hrun. destruct (Hdef Habs) as [-> _]. reflexivity.
  - destruct (viscosity_init_never_fails viscosity_params_half tt tt
                {| alpha := S754_nan |}) as (a & Hrun & _ & Hsup).
    rewrite Hrun, (Hsup _ Hhalf). reflexivity.
Defined.

(** C3. [viscosity_print_snapshot] appends exactly two attributes to the
    group: ["Alpha viscosity"] with the alpha of the struct and
    ["Beta viscosity"] with [const_viscosity_beta], which is three.  For the
    parameter file that sets ["SPH:viscosity_alpha"] to [0.5], the struct
    [viscosity_init] fills is written as one half and three. *)
Theorem viscosity_print_snapshot_attributes
    {U P : Type} (us : U) (pc : P) (h_grpsph : hid_t)
    (viscosity unfilled : viscosity_global_data) :
  viscosity_print_snapshot h_grpsph viscosity =
    Done (tt, (h_grpsph ++ [("Alpha viscosity", Float (alpha viscosity));
                            ("Beta viscosity", Float const_viscosity_beta)])%list) /\
  Float32.value const_viscosity_beta = Some (3 # 1) /\
  exists resolved,
    viscosity_init viscosity_params_half us pc unfilled = Done (tt, resolved) /\
    Float32.value (alpha resolved) = Some (1 # 2) /\
    viscosity_print_snapshot h_grpsph resolved =
      Done (tt, (h_grpsph ++
                 [("Alpha viscosity", Float (S754_finite false 8388608 (-24)));
                  ("Beta viscosity", Float (S754_finite false 12582912 (-22)))])%list).
Proof.
  split; [| split; [reflexivity |]].
  - destruct viscosity as [a].
    unfold viscosity_print_snapshot, mbind, M_bind, mret, M_ret, read_member,
      io_write_attribute_f.
    simpl. rewrite <- app_assoc. reflexivity.
  - exists {| alpha := Float32.literal 5 10 |}.
    split; [vm_compute; reflexivity | split; [reflexivity |]].
    unfold viscosity_print_snapshot, mbind, M_bind, mret, M_ret, read_member,
      io_write_attribute_f.
    simpl. rewrite <- app_assoc. reflexivity.
Qed.

(** ** The initialisers for mocking *)

(** C8. [viscosity_init_no_hydro] always leaves the struct with alpha
    [0.8f], and [mhd_init_no_hydro] always leaves the struct with its seven
    members zero: whatever the struct held before makes no difference, no
    parameter file is an argument, and a second call changes nothing. *)
Theorem mock_initialisers_are_constant
    (viscosity viscosity' : viscosity_global_data)
    (mhd mhd' : mhd_global_data) :
  viscosity_init_no_hydro viscosity =
    Done (tt, {| alpha := S754_finite false 13421773 (-24) |}) /\
  hydro_props_default_viscosity_alpha = S754_finite false 13421773 (-24) /\
  viscosity_init_no_hydro viscosity' = viscosity_init_no_hydro viscosity /\
  (viscosity_init_no_hydro ;; viscosity_init_no_hydro) viscosity =
    viscosity_init_no_hydro viscosity /\
  mhd_init_no_hydro mhd =
    Done (tt, {| artificial_dissipation_constant := S754_zero false;
                 artificial_dissipation_minimum := S754_zero false;
                 artificial_dissipation_source := S754_zero false;
                 artificial_dissipation_timescale := S754_zero false;
                 with_div_B_cleaning := 0;
                 div_B_parabolic_sigma := S754_zero false;
                 div_B_over_clean_factor := S754_zero false |}) /\
  mhd_init_no_hydro mhd' = mhd_init_no_hydro mhd /\
  (mhd_init_no_hydro ;; mhd_init_no_hydro) mhd = mhd_init_no_hydro mhd.
Proof.
  destruct mhd, mhd'.
  split; [reflexivity | split; [reflexivity | split; [reflexivity |]]].
  split; [reflexivity | split; [reflexivity | split; reflexivity]].
Qed.

(** C10. The struct [mhd_init_no_hydro] leaves has an over-cleaning factor
    of [0.f]: one is not at most it, and it is below one, so the check of
    [mhd_init] would stop the run on it.  A struct that [mhd_init] returns
    has passed that check: its factor is not below one, and, when it is a
    number, one is at most it. *)
Theorem mhd_init_no_hydro_over_clean_factor (mhd : mhd_global_data) :
  exists mock,
    mhd_init_no_hydro mhd = Done (tt, mock) /\
    div_B_over_clean_factor mock = S754_zero false /\
    Float32.value (div_B_over_clean_factor mock) = Some (0 # 1) /\
    Float32.leb (Float32.literal 1 1) (div_B_over_clean_factor mock) = false /\
    Float32.ltb (div_B_over_clean_factor mock) (Float32.literal 1 1) = true /\
    (forall (U P : Type) (unset : Z) (params : swift_params) (us : U) (pc : P)
            (unfilled resolved : mhd_global_data),
       mhd_init unset params us pc unfilled = Done (tt, resolved) ->
       Float32.ltb (div_B_over_clean_factor resolved) (Float32.literal 1 1)
         = false /\
       (Float32.is_nan (div_B_over_clean_factor resolved) = false ->
        Float32.leb (Float32.literal 1 1) (div_B_over_clean_factor resolved)
          = true)).
Proof.
  destruct mhd. eexists. split; [reflexivity |].
  split; [reflexivity | split; [reflexivity |]].
  split; [reflexivity | split; [reflexivity |]].
  intros U P unset params us pc unfilled resolved Hrun.
  destruct (mhd_init_done unset params us pc unfilled resolved Hrun)
    as (_ & _ & Hlt).
  split; [exact Hlt |].
  intros Hnum. apply ltb_false_leb; [exact Hnum | reflexivity | exact Hlt].
Qed.

Lemma mhd_init_no_hydro_over_clean_factor_witness :
  exists resolved,
    mhd_init 0 mhd_params_required tt tt mhd_unfilled = Done (tt, resolved) /\
    Float32.is_nan (div_B_over_clean_factor resolved) = false /\
    Float32.leb (Float32.literal 1 1) (div_B_over_clean_factor resolved) = true.
Proof.
  destruct (mhd_init_no_hydro_over_clean_factor mhd_unfilled)
    as (mock & _ & _ & _ & _ & _ & Hresolve).
  eexists.
  assert (Hrun : mhd_init 0 mhd_params_required tt tt mhd_unfilled
                 = Done (tt, _))
    by (vm_compute; reflexivity).
  split; [exact Hrun |].
  assert (Hnum : Float32.is_nan
                   (div_B_over_clean_factor
                      {| artificial_dissipation_constant := S754_finite false 8388608 (-23);
                         artificial_dissipation_minimum := S754_zero false;
                         artificial_dissipation_source := S754_finite false 8388608 (-23);
                         artificial_dissipation_timescale := S754_finite false 8388608 (-24);
                         with_div_B_cleaning := 0;
                         div_B_parabolic_sigma := S754_finite false 8388608 (-23);
                         div_B_over_clean_factor := S754_finite false 8388608 (-23) |})
                 = false)
    by reflexivity.
  split; [exact Hnum |].
  exact (proj2 (Hresolve _ _ _ _ _ _ _ _ Hrun) Hnum).
Defined.

(** ** Diffusion *)

(** C9. The four diffusion functions have empty bodies.  Each returns and
    leaves its state as it was: the (memberless) struct, the log, the
    attributes of the group; [diffusion_init] gives the same for every
    parameter file, unit system and constants, and the struct has one value
    only. *)
Theorem diffusion_operations_are_no_ops
    {U P : Type} (params params' : swift_params) (us us' : U) (pc pc' : P)
    (diffusion diffusion' : diffusion_global_data) (l : log)
    (h_grpsph : hid_t) :
  diffusion_init params us pc diffusion = Done (tt, diffusion) /\
  diffusion_init params' us' pc' diffusion = diffusion_init params us pc diffusion /\
  diffusion_init_no_hydro diffusion = Done (tt, diffusion) /\
  diffusion_print diffusion l = Done (tt, l) /\
  diffusion_print_snapshot h_grpsph diffusion = Done (tt, h_grpsph) /\
  diffusion = diffusion' /\
  (forall name, member diffusion name = None).
Proof.
  destruct diffusion, diffusion'.
  split; [reflexivity | split; [reflexivity | split; [reflexivity |]]].
  split; [reflexivity | split; [reflexivity | split; [reflexivity |]]].
  intros name. reflexivity.
Qed.

(** * Further properties of the header *)

(** ** Running one call after another *)

Lemma run_seq {S A B : Type} (c : M S A) (k : M S B) (s : S) :
  (c ;; k) s = match c s with
               | Done (_, s') => k s'
               | Fatal msg => Fatal msg
               | IllFormed why => IllFormed why
               end.
Proof. reflexivity. Qed.

(** What [mhd_print_snapshot] appends, for every struct and group. *)
Lemma mhd_print_snapshot_run (h_grpsph : hid_t) (c m s t : float) (w : Z)
    (p o : float) :
  mhd_print_snapshot h_grpsph (Build_mhd_global_data c m s t w p o) =
    Done (tt, (h_grpsph ++
               [("Artificial dissipation constant", Float c);
                ("Artificial dissipation minimum", Float m);
                ("Artificial dissipation source", Float s);
                ("Artificial dissipation timescale", Float t);
                ("divB cleaning turned on", Int w)] ++
               (if Z.eqb w 0 then []
                else [("divB parabolic sigma", Float p);
                      ("divB over-cleaning factor", Float o)]))%list).
Proof.
  unfold mhd_print_snapshot, mbind, M_bind, mret, M_ret, read_member,
    io_write_attribute_f, io_write_attribute_i.
  simpl. destruct (Z.eqb w 0); simpl;
    repeat rewrite <- app_assoc; simpl; reflexivity.
Qed.

Section MhdInitAgain.

Context {U P : Type}.
Variables (unset : Z) (params : swift_params) (us : U) (pc : P).

(** [mhd_init] writes every member before it reads one: what the struct
    held at the call does not show in the outcome. *)
Lemma mhd_init_any_struct (mhd mhd' : mhd_global_data) :
  mhd_init unset params us pc mhd = mhd_init unset params us pc mhd'.
Proof.
  destruct (forallb (has_float params) mhd_required_keys) eqn:Hall.
  - simpl in Hall.
    repeat (apply andb_prop in Hall; destruct Hall as [?%has_float_value Hall]).
    repeat match goal with E : exists _, _ |- _ => destruct E end.
    erewrite (mhd_init_present unset params us pc mhd) by eassumption.
    erewrite (mhd_init_present unset params us pc mhd') by eassumption.
    reflexivity.
  - destruct (forallb_false_find _ _ Hall) as (k & Hk & _).
    rewrite (mhd_init_first_missing unset params us pc mhd k Hk).
    rewrite (mhd_init_first_missing unset params us pc mhd' k Hk).
    reflexivity.
Qed.


End MhdInitAgain.

(** ** MHD: what a resolve leaves in the struct *)

(** X1. [mhd_init] assigns all seven members, or stops: its outcome is the
    same whatever the struct held at the call, and a second call with the
    same parameter file changes nothing. *)
Theorem mhd_init_overwrites_struct
    {U P : Type} (unset : Z) (params : swift_params) (us : U) (pc : P)
    (mhd mhd' : mhd_global_data) :
  mhd_init unset params us pc mhd = mhd_init unset params us pc mhd' /\
  (mhd_init unset params us pc ;; mhd_init unset params us pc) mhd =
    mhd_init unset params us pc mhd.
Proof.
  split; [apply mhd_init_any_struct |].
  rewrite run_seq.
  destruct (mhd_init unset params us pc mhd) as [[[] resolved] | msg | why] eqn:E;
    try reflexivity.
  rewrite <- E. apply mhd_init_any_struct.
Qed.

(** X2. When [mhd_init] returns, each member holds the value the parameter
    file gives to the key of the same name: no value is dropped or stored
    under another member; the flag and the over-cleaning factor hold the
    value of the file, or their fallback when the file has none. *)
Theorem mhd_init_stores_file_values
    {U P : Type} (unset : Z) (params : swift_params) (us : U) (pc : P)
    (mhd resolved : mhd_global_data) :
  mhd_init unset params us pc mhd = Done (tt, resolved) ->
  float_value params "SPH:artificial_dissipation_constant"
    = Some (artificial_dissipation_constant resolved) /\
  float_value params "SPH:artificial_dissipation_minimum"
    = Some (artificial_dissipation_minimum resolved) /\
  float_value params "SPH:artificial_dissipation_source"
    = Some (artificial_dissipation_source resolved) /\
  float_value params "SPH:artificial_dissipation_timescale"
    = Some (artificial_dissipation_timescale resolved) /\
  float_value params "SPH:div_B_parabolic_sigma"
    = Some (div_B_parabolic_sigma resolved) /\
  with_div_B_cleaning resolved
    = default unset (int_value params "SPH:with_div_B_cleaning") /\
  div_B_over_clean_factor resolved
    = default (Float32.literal 1 1)
        (float_value params "SPH:div_B_over_clean_factor").
Proof.
  intros Hrun.
  destruct (mhd_init_done unset params us pc mhd resolved Hrun) as (Hall & _).
  simpl in Hall.
  repeat (apply andb_prop in Hall; destruct Hall as [?%has_float_value Hall]).
  repeat match goal with E : exists _, _ |- _ => destruct E as [? E] end.
  erewrite mhd_init_present in Hrun by eassumption. simpl in Hrun.
  destruct (Float32.ltb _ _); [discriminate Hrun |].
  injection Hrun as <-. simpl. repeat split; assumption.
Qed.

Lemma mhd_init_stores_file_values_witness :
  exists resolved,
    mhd_init 0 mhd_params_cleaning_on tt tt mhd_unfilled = Done (tt, resolved) /\
    float_value mhd_params_cleaning_on "SPH:artificial_dissipation_timescale"
      = Some (artificial_dissipation_timescale resolved) /\
    with_div_B_cleaning resolved = 1.
Proof.
  eexists.
  assert (Hrun : mhd_init 0 mhd_params_cleaning_on tt tt mhd_unfilled
                 = Done (tt, _))
    by (vm_compute; reflexivity).
  split; [exact Hrun |].
  destruct (mhd_init_stores_file_values _ _ _ _ _ _ Hrun)
    as (_ & _ & _ & Ht & _ & Hflag & _).
  split; [exact Ht |].
  rewrite Hflag. vm_compute. reflexivity.
Defined.


(** X4. The check is [factor < 1.f], and no comparison with a NaN holds:
    a parameter file with the five required keys and a NaN as
    ["SPH:div_B_over_clean_factor"] is resolved, the struct holds the NaN,
    and one is not at most that factor. *)
Theorem mhd_init_check_lets_nan_through
    {U P : Type} (unset : Z) (params : swift_params) (us : U) (pc : P)
    (mhd : mhd_global_data) :
  forallb (has_float params) mhd_required_keys = true ->
  params !! "SPH:div_B_over_clean_factor" = Some (Float S754_nan) ->
  exists resolved,
    mhd_init unset params us pc mhd = Done (tt, resolved) /\
    div_B_over_clean_factor resolved = S754_nan /\
    Float32.ltb (div_B_over_clean_factor resolved) (Float32.literal 1 1)
      = false /\
    Float32.leb (Float32.literal 1 1) (div_B_over_clean_factor resolved)
      = false.
Proof.
  intros Hreq Hnan%float_value_supplied.
  destruct (mhd_init_accepts_nan unset params us pc mhd Hreq Hnan)
    as (resolved & Hrun & Hfactor & Hle).
  exists resolved. split; [exact Hrun | split; [exact Hfactor | split]].
  - rewrite Hfactor. reflexivity.
  - exact Hle.
Qed.

Lemma mhd_init_check_lets_nan_through_witness :
  forallb (has_float mhd_params_factor_nan) mhd_required_keys = true /\
  mhd_params_factor_nan !! "SPH:div_B_over_clean_factor"
    = Some (Float S754_nan) /\
  exists resolved,
    mhd_init 0 mhd_params_factor_nan tt tt mhd_unfilled = Done (tt, resolved) /\
    div_B_over_clean_factor resolved = S754_nan.
Proof.
  assert (Hreq : forallb (has_float mhd_params_factor_nan) mhd_required_keys
                 = true)
    by (vm_compute; reflexivity).
  assert (Hnan : mhd_params_factor_nan !! "SPH:div_B_over_clean_factor"
                 = Some (Float S754_nan))
    by (vm_compute; reflexivity).
  split; [exact Hreq | split; [exact Hnan |]].
  destruct (mhd_init_check_lets_nan_through 0 mhd_params_factor_nan tt tt
              mhd_unfilled Hreq Hnan) as (resolved & Hrun & Hfactor & _).
  exists resolved. split; assumption.
Defined.

(** X5. Resolve, then export.  With the five required keys in the file and
    a factor that passes the check, the attributes [mhd_print_snapshot]
    writes for the struct [mhd_init] filled are the values of the file, each
    under its name: the cleaning flag as the file (or the fallback) has it,
    and, when the flag is not zero, the sigma of the file and the factor of
    the file, or one when the file has none. *)
Theorem mhd_init_then_print_snapshot
    {U P : Type} (unset : Z) (params : swift_params) (us : U) (pc : P)
    (mhd : mhd_global_data) (h_grpsph : hid_t) (c m s t p : float) :
  float_value params "SPH:artificial_dissipation_constant" = Some c ->
  float_value params "SPH:artificial_dissipation_minimum" = Some m ->
  float_value params "SPH:artificial_dissipation_source" = Some s ->
  float_value params "SPH:artificial_dissipation_timescale" = Some t ->
  float_value params "SPH:div_B_parabolic_sigma" = Some p ->
  Float32.ltb
    (default (Float32.literal 1 1)
       (float_value params "SPH:div_B_over_clean_factor"))
    (Float32.literal 1 1) = false ->
  exists resolved,
    mhd_init unset params us pc mhd = Done (tt, resolved) /\
    mhd_print_snapshot h_grpsph resolved =
      Done (tt, (h_grpsph ++
                 [("Artificial dissipation constant", Float c);
                  ("Artificial dissipation minimum", Float m);
                  ("Artificial dissipation source", Float s);
                  ("Artificial dissipation timescale", Float t);
                  ("divB cleaning turned on",
                   Int (default unset (int_value params "SPH:with_div_B_cleaning")))] ++
                 (if Z.eqb (default unset
                              (int_value params "SPH:with_div_B_cleaning")) 0
                  then []
                  else [("divB parabolic sigma", Float p);
                        ("divB over-cleaning factor",
                         Float (default (Float32.literal 1 1)
                                  (float_value params
                                     "SPH:div_B_over_clean_factor")))]))%list).
Proof.
  intros Hc Hm Hs Ht Hp Hlt.
  rewrite (mhd_init_present unset params us pc mhd c m s t p Hc Hm Hs Ht Hp).
  simpl. rewrite Hlt.
  eexists. split; [reflexivity |]. apply mhd_print_snapshot_run.
Qed.

Lemma mhd_init_then_print_snapshot_witness :
  exists resolved,
    mhd_init 0 mhd_params_cleaning_on tt tt mhd_unfilled = Done (tt, resolved) /\
    mhd_print_snapshot [] resolved =
      Done (tt, [("Artificial dissipation constant", Float (Float32.literal 1 1));
                 ("Artificial dissipation minimum", Float (Float32.literal 0 1));
                 ("Artificial dissipation source", Float (Float32.literal 1 1));
                 ("Artificial dissipation timescale", Float (Float32.literal 5 10));
                 ("divB cleaning turned on", Int 1);
                 ("divB parabolic sigma", Float (Float32.literal 1 1));
                 ("divB over-cleaning factor", Float (Float32.literal 1 1))]).
Proof.
  destruct (mhd_init_then_print_snapshot 0 mhd_params_cleaning_on tt tt
              mhd_unfilled []
              (Float32.literal 1 1) (Float32.literal 0 1) (Float32.literal 1 1)
              (Float32.literal 5 10) (Float32.literal 1 1))
    as (resolved & Hrun & Hexport);
    try (vm_compute; reflexivity).
  exists resolved. split; [exact Hrun |].
  rewrite Hexport. vm_compute. reflexivity.
Defined.

(** ** MHD: the two initialisers, one after the other *)

(** X6. Mock, then export.  For the struct [mhd_init_no_hydro] leaves,
    whatever it held before, [mhd_print_snapshot] writes five attributes, the
    four dissipation values and the flag, all zero, and neither of the two
    cleaning attributes. *)
Theorem mhd_init_no_hydro_then_print_snapshot
    (mhd : mhd_global_data) (h_grpsph : hid_t) :
  exists mock,
    mhd_init_no_hydro mhd = Done (tt, mock) /\
    mhd_print_snapshot h_grpsph mock =
      Done (tt, (h_grpsph ++
                 [("Artificial dissipation constant", Float (S754_zero false));
                  ("Artificial dissipation minimum", Float (S754_zero false));
                  ("Artificial dissipation source", Float (S754_zero false));
                  ("Artificial dissipation timescale", Float (S754_zero false));
                  ("divB cleaning turned on", Int 0)])%list).
Proof.
  destruct mhd. eexists. split; [reflexivity |].
  rewrite mhd_print_snapshot_run. simpl. reflexivity.
Qed.

(** X7. The initialiser that runs last decides.  [mhd_init] after
    [mhd_init_no_hydro] is [mhd_init] alone; [mhd_init_no_hydro] after an
    [mhd_init] that returned leaves the mock values; and after an [mhd_init]
    that stopped through [error()], nothing runs: the outcome stays that
    stop. *)
Theorem mhd_last_initialiser_decides
    {U P : Type} (unset : Z) (params : swift_params) (us : U) (pc : P)
    (mhd : mhd_global_data) :
  (mhd_init_no_hydro ;; mhd_init unset params us pc) mhd =
    mhd_init unset params us pc mhd /\
  (forall resolved,
     mhd_init unset params us pc mhd = Done (tt, resolved) ->
     (mhd_init unset params us pc ;; mhd_init_no_hydro) mhd =
       mhd_init_no_hydro mhd) /\
  (forall msg,
     mhd_init unset params us pc mhd = Fatal msg ->
     (mhd_init unset params us pc ;; mhd_init_no_hydro) mhd = Fatal msg).
Proof.
  split; [| split].
  - rewrite run_seq. destruct mhd. simpl. apply mhd_init_any_struct.
  - intros resolved Hrun. rewrite run_seq, Hrun.
    destruct resolved, mhd. reflexivity.
  - intros msg Hrun. rewrite run_seq, Hrun. reflexivity.
Qed.

Lemma mhd_last_initialiser_decides_witness :
  (mhd_init 0 mhd_params_required tt tt ;; mhd_init_no_hydro) mhd_unfilled =
    mhd_init_no_hydro mhd_unfilled /\
  (mhd_init 0 mhd_params_no_sigma tt tt ;; mhd_init_no_hydro) mhd_unfilled =
    Fatal "Cannot find a float value for SPH:div_B_parabolic_sigma".
Proof.
  destruct (mhd_last_initialiser_decides 0 mhd_params_required tt tt
              mhd_unfilled) as (_ & Hdone & _).
  destruct (mhd_last_initialiser_decides 0 mhd_params_no_sigma tt tt
              mhd_unfilled) as (_ & _ & Hfatal).
  split.
  - eapply Hdone. vm_compute. reflexivity.
  - apply Hfatal. vm_compute. reflexivity.
Defined.

(** ** Viscosity: resolve, mock, report, export *)

(** X8. Without ["SPH:viscosity_alpha"] in the parameter file,
    [viscosity_init] does what [viscosity_init_no_hydro] does, whatever the
    structs held: alpha is the default, which is also the value a feedback
    event resets the viscosity to. *)
Theorem viscosity_init_without_key_is_mock
    {U P : Type} (params : swift_params) (us : U) (pc : P)
    (viscosity viscosity' : viscosity_global_data) :
  params !! "SPH:viscosity_alpha" = None ->
  viscosity_init params us pc viscosity = viscosity_init_no_hydro viscosity' /\
  viscosity_init params us pc viscosity =
    Done (tt, {| alpha := hydro_props_default_viscosity_alpha_feedback_reset |}).
Proof.
  intros Habs%float_value_absent.
  unfold viscosity_init, parser_get_opt_param_float. rewrite Habs.
  split; reflexivity.
Qed.

Lemma viscosity_init_without_key_is_mock_witness :
  (∅ : gmap string scalar) !! "SPH:viscosity_alpha" = None /\
  viscosity_init ∅ tt tt {| alpha := S754_nan |} =
    viscosity_init_no_hydro {| alpha := S754_zero true |}.
Proof.
  assert (Habs : (∅ : gmap string scalar) !! "SPH:viscosity_alpha" = None)
    by (vm_compute; reflexivity).
  split; [exact Habs |].
  exact (proj1 (viscosity_init_without_key_is_mock ∅ tt tt
                  {| alpha := S754_nan |} {| alpha := S754_zero true |} Habs)).
Defined.

(** X9. Resolve, report, export.  For every parameter file, the struct
    [viscosity_init] fills is reported by [viscosity_print] as one line, after
    the lines the log had, and written by [viscosity_print_snapshot] after
    the attributes the group had; the reported value and the
    ["Alpha viscosity"] attribute are the same, the value of the file or the
    default, and ["Beta viscosity"] is [3.0f] whatever the file says. *)
Theorem viscosity_init_then_print_and_snapshot
    {U P : Type} (params : swift_params) (us : U) (pc : P)
    (viscosity : viscosity_global_data) (l : log) (h_grpsph : hid_t) :
  exists resolved,
    viscosity_init params us pc viscosity = Done (tt, resolved) /\
    alpha resolved =
      default hydro_props_default_viscosity_alpha
        (float_value params "SPH:viscosity_alpha") /\
    viscosity_print resolved l =
      Done (tt, (l ++ [("Artificial viscosity parameters set to alpha: %.3f",
                        [Float (alpha resolved)])])%list) /\
    viscosity_print_snapshot h_grpsph resolved =
      Done (tt, (h_grpsph ++
                 [("Alpha viscosity", Float (alpha resolved));
                  ("Beta viscosity", Float (S754_finite false 12582912 (-22)))])%list).
Proof.
  eexists. split; [reflexivity |]. split; [reflexivity |]. split.
  - reflexivity.
  - unfold viscosity_print_snapshot, mbind, M_bind, mret, M_ret, read_member,
      io_write_attribute_f.
    simpl. rewrite <- app_assoc. reflexivity.
Qed.
